(** * Tokyo Stock Price Explorer: the data path of [eros.py]

    The script is one linear Streamlit page: it loads a table of daily price
    bars (fetched per company, or parsed from an uploaded CSV), narrows it to
    one company and to a range of calendar dates, and hands the result to a
    download button and a chart.

    The embedding follows the script line by line.  A pandas [DataFrame] is a
    list of column labels with a list of rows, each row a finite map from
    label to cell.  Whatever the script obtains from outside (the answers of
    the widgets, the price provider, the CSV reader and writer, the parser of
    date strings) is read from a [World].  Running the script yields the
    list of elements it put on the page together with how the run ended:
    to the last line, at [st.stop()], or with an exception nobody caught.

    Page configuration and styling ([set_page_config], [remove_bg]), the
    spinner and the memoisation decorators do not touch the data path of a
    single run and are left out. *)

From Stdlib Require Import ZArith.
From Stdlib Require Import Floats.PrimFloat.
From Stdlib Require Uint63.
From stdpp Require Import gmap strings list.

Open Scope string_scope.
Open Scope list_scope.

(** ** Cells *)

Module Cell.

(** The scalars found in the columns the script touches: prices are
    [float64] (NaN marks a missing number), volumes [int64], names [str];
    a [datetime64[ns]] cell is a count of nanoseconds since 1970-01-01, or
    [NaT].  [NoneV] is Python's [None]. *)
Inductive value :=
| Float (f : float)
| Int (n : Z)
| Str (s : string)
| Time (ns : Z)
| NaT
| NoneV.

Definition NaN : value := Float nan.

(** [int64] arithmetic wraps around. *)
Definition wrap64 (z : Z) : Z := ((z + 2 ^ 63) mod 2 ^ 64 - 2 ^ 63)%Z.

(** [int64] to [float64], as numpy promotes it. *)
Definition float_of_int64 (z : Z) : float :=
  if (z <? 0)%Z then PrimFloat.opp (PrimFloat.of_uint63 (Uint63.of_Z (- z)))
  else PrimFloat.of_uint63 (Uint63.of_Z z).

(** A calendar date ([datetime.date]) is its day number, counted from
    1970-01-01; Python orders dates as it orders these numbers. *)
Definition ns_per_day : Z := 86400000000000.

(** [Timestamp.date()]: the time of day is dropped. *)
Definition date_of_ns (ns : Z) : Z := (ns / ns_per_day)%Z.

(** Midnight of a day, as [datetime64[ns]]. *)
Definition midnight (day : Z) : Z := (day * ns_per_day)%Z.

End Cell.
Export Cell.

(** ** Exceptions and the two monads *)

Inductive exn :=
| KeyError (key : string)
| ValueError (msg : string)
| TypeError (msg : string)
| AttributeError (msg : string)
| OtherError (msg : string).

(** [str(e)] *)
Definition exn_str (e : exn) : string :=
  match e with
  | KeyError k => "'" +:+ k +:+ "'"
  | ValueError m | TypeError m | AttributeError m | OtherError m => m
  end.

(** A pandas expression either has a value or raises. *)
Inductive result (A : Type) :=
| Ok (a : A)
| Err (e : exn).
Arguments Ok {A} a.
Arguments Err {A} e.

Definition result_bind {A B : Type} (f : A → result B) (r : result A) : result B :=
  match r with
  | Ok a => f a
  | Err e => Err e
  end.

#[global] Instance result_mret : MRet result := @Ok.
#[global] Instance result_mbind : MBind result := @result_bind.

(** ** Data frames *)

Abbreviation Row := (gmap string value).

Record DataFrame := {
  columns : list string;
  rows : list Row
}.

Module Pandas.

Definition cell (c : string) (r : Row) : value := default NaN (r !! c).

(** [df[c]] read. *)
Definition getitem (df : DataFrame) (c : string) : result (list value) :=
  if decide (c ∈ columns df) then Ok (cell c <$> rows df) else Err (KeyError c).

Definition add_column (c : string) (cols : list string) : list string :=
  if decide (c ∈ cols) then cols else cols ++ [c].

(** [df[c] = s] for a series over the frame's own index. *)
Definition setitem (df : DataFrame) (c : string) (s : list value) : result DataFrame :=
  if decide (length s = length (rows df)) then
    Ok {| columns := add_column c (columns df);
          rows := zip_with (λ r v, <[c := v]> r) (rows df) s |}
  else Err (ValueError "Length of values does not match length of index").

(** [df[c] = v] for a scalar, broadcast to every row. *)
Definition setitem_scalar (df : DataFrame) (c : string) (v : value) : DataFrame :=
  {| columns := add_column c (columns df);
     rows := (λ r, <[c := v]> r) <$> rows df |}.

(** [df[mask]]: the rows at which the mask holds, in their order. *)
Fixpoint mask_rows (rs : list Row) (mask : list bool) : list Row :=
  match rs, mask with
  | r :: rs', b :: mask' =>
      if b then r :: mask_rows rs' mask' else mask_rows rs' mask'
  | _, _ => []
  end.

Definition boolean_index (df : DataFrame) (mask : list bool) : DataFrame :=
  {| columns := columns df; rows := mask_rows (rows df) mask |}.

(** Element-wise [-] on cells. Operands that are not numbers do not occur
    in the columns the script subtracts; they raise. *)
Definition value_sub (a b : value) : result value :=
  match a, b with
  | Float x, Float y => Ok (Float (PrimFloat.sub x y))
  | Int x, Int y => Ok (Int (wrap64 (x - y)))
  | Int x, Float y => Ok (Float (PrimFloat.sub (float_of_int64 x) y))
  | Float x, Int y => Ok (Float (PrimFloat.sub x (float_of_int64 y)))
  | _, _ => Err (TypeError "unsupported operand type(s) for -")
  end.

Fixpoint series_sub (a b : list value) : result (list value) :=
  match a, b with
  | x :: a', y :: b' =>
      v ← value_sub x y; vs ← series_sub a' b'; Ok (v :: vs)
  | _, _ => Ok []
  end.

(** Python's [==] on cells. *)
Definition py_eq (a b : value) : bool :=
  match a, b with
  | Float x, Float y => PrimFloat.eqb x y
  | Int x, Int y => (x =? y)%Z
  | Int x, Float y => PrimFloat.eqb (float_of_int64 x) y
  | Float x, Int y => PrimFloat.eqb x (float_of_int64 y)
  | Str x, Str y => String.eqb x y
  | Time x, Time y => (x =? y)%Z
  | _, _ => false
  end.

Definition series_eq (s : list value) (v : value) : list bool :=
  (λ x, py_eq x v) <$> s.

Definition is_missing (v : value) : bool :=
  match v with
  | Float f => PrimFloat.is_nan f
  | NaT | NoneV => true
  | _ => false
  end.

(** [Series.unique()]: first occurrences, in order; missing values are one
    key. *)
Definition same_key (a b : value) : bool :=
  py_eq a b || (is_missing a && is_missing b).

Definition unique (s : list value) : list value :=
  foldl (λ seen v, if existsb (same_key v) seen then seen else seen ++ [v]) [] s.

(** [pd.to_datetime]: datetimes are kept, missing cells become [NaT], and
    anything else goes through the library's parser, which may refuse. *)
Definition to_datetime_value (parse : value → option Z) (v : value) : result value :=
  match v with
  | Time t => Ok (Time t)
  | NaT | NoneV => Ok NaT
  | _ =>
      if is_missing v then Ok NaT
      else match parse v with
           | Some t => Ok (Time t)
           | None => Err (ValueError "Unknown datetime string format, unable to parse")
           end
  end.

Fixpoint to_datetime (parse : value → option Z) (s : list value) : result (list value) :=
  match s with
  | [] => Ok []
  | v :: s' =>
      t ← to_datetime_value parse v; ts ← to_datetime parse s'; Ok (t :: ts)
  end.

(** [Series.dt.date]: a calendar date per cell, [None] standing for [NaT].
    The accessor exists on datetime columns only. *)
Definition dt_date_value (v : value) : result (option Z) :=
  match v with
  | Time t => Ok (Some (date_of_ns t))
  | NaT => Ok None
  | _ => Err (AttributeError "Can only use .dt accessor with datetimelike values")
  end.

Fixpoint dt_date (s : list value) : result (list (option Z)) :=
  match s with
  | [] => Ok []
  | v :: s' => d ← dt_date_value v; ds ← dt_date s'; Ok (d :: ds)
  end.

(** Comparison of a date cell with a date; [NaT] compares false. *)
Definition date_ge (d : option Z) (bound : Z) : bool :=
  match d with Some x => (bound <=? x)%Z | None => false end.

Definition date_le (d : option Z) (bound : Z) : bool :=
  match d with Some x => (x <=? bound)%Z | None => false end.

(** [Series.min()] and [Series.max()] of a datetime column skip [NaT]; the
    result is [NaT] ([None]) when nothing is left. *)
Fixpoint series_extremum (pick : Z → Z → Z) (s : list value) : result (option Z) :=
  match s with
  | [] => Ok None
  | v :: s' =>
      m ← series_extremum pick s';
      match v with
      | Time t => Ok (Some (from_option (pick t) t m))
      | NaT => Ok m
      | _ => Err (TypeError "'<' not supported between these values")
      end
  end.

Definition series_min := series_extremum Z.min.
Definition series_max := series_extremum Z.max.

(** [pd.concat(frames, axis=0)]: the union of the columns in order of first
    appearance, every row completed with NaN; no frames at all is an
    error. *)
Definition add_columns (acc cs : list string) : list string :=
  foldl (λ a c, add_column c a) acc cs.

Definition union_columns (frames : list DataFrame) : list string :=
  foldl (λ acc df, add_columns acc (columns df)) [] frames.

Definition reindex (cols : list string) (r : Row) : Row :=
  foldr (λ c m, match m !! c with Some _ => m | None => <[c := NaN]> m end) r cols.

Definition concat (frames : list DataFrame) : result DataFrame :=
  match frames with
  | [] => Err (ValueError "No objects to concatenate")
  | _ :: _ =>
      let cols := union_columns frames in
      Ok {| columns := cols;
            rows := frames ≫= (λ df, reindex cols <$> rows df) |}
  end.

End Pandas.
Export Pandas.

(** ** The page and the world around the script *)

(** Modelled from the spec: the answer of the remote data provider, which
    is not part of the repository.  A successful request returns ordered
    daily OHLCV rows, one [Bar] each: a frame indexed by date with the
    columns Open, High, Low, Close and Volume. *)
Record Bar := {
  bar_date : Z;          (* datetime64[ns] *)
  bar_open : float;
  bar_high : float;
  bar_low : float;
  bar_close : float;
  bar_volume : Z
}.

Inductive source := TokyoStockDataset | UploadCSV.
Inductive chart := StaticSeaborn | InteractivePlotly.

(** What a run reads from outside the script. *)
Record World := {
  (* st.sidebar.radio("Choose data source:", ...) *)
  data_source : source;
  (* yf.download(ticker, start=, end=): bars, or the exception it raised *)
  yf_download : string → Z → Z → result (list Bar);
  (* st.sidebar.file_uploader(...): the file's text, or None *)
  uploaded_file : option string;
  (* pd.read_csv on that text *)
  read_csv : string → result DataFrame;
  (* the scalar parser behind pd.to_datetime *)
  parse_datetime : value → option Z;
  (* the entry picked in st.sidebar.selectbox, by position *)
  stock_choice : nat;
  (* st.sidebar.date_input(label, min_value, max_value, value) *)
  date_input : string → option Z → option Z → option Z → result Z;
  (* st.sidebar.radio("Select chart type:", ...) *)
  chart_type : chart;
  (* st.checkbox("Show full dataset") *)
  show_full_dataset : bool;
  (* DataFrame.to_csv(index=False).encode('utf-8') *)
  to_csv : DataFrame → string
}.

(** Elements the script puts on the page. *)
Inductive event :=
| Title (text : string)
| Write (text : string)
| SidebarHeader (text : string)
| Subheader (text : string)
| Widget (label : string)
| Warning (msg : string)
| Success (msg : string)
| Info (msg : string)
| DownloadButton (label data file_name mime : string)
| Pyplot (df : DataFrame) (stock : option value)
| PlotlyChart (df : DataFrame)
| ShowDataframe (df : DataFrame).

(** How a run ends: at the last line with a value, at [st.stop()], or with
    an exception no handler caught. *)
Inductive outcome (A : Type) :=
| Ret (a : A)
| Stop
| Raise (e : exn).
Arguments Ret {A} a.
Arguments Stop {A}.
Arguments Raise {A} e.

Definition script (A : Type) : Type := list event * outcome A.

Definition script_bind {A B : Type} (f : A → script B) (m : script A) : script B :=
  match m with
  | (log, Ret a) => let '(log', o) := f a in (log ++ log', o)
  | (log, Stop) => (log, Stop)
  | (log, Raise e) => (log, Raise e)
  end.

#[global] Instance script_mret : MRet script := λ A a, ([], Ret a).
#[global] Instance script_mbind : MBind script := @script_bind.

Definition emit (ev : event) : script unit := ([ev], Ret tt).
Definition st_stop {A : Type} : script A := ([], Stop).
Definition lift {A : Type} (r : result A) : script A :=
  match r with
  | Ok a => ([], Ret a)
  | Err e => ([], Raise e)
  end.

(** ** The script *)

(** [start_date = datetime.datetime(2023, 4, 1)],
    [end_date = datetime.datetime(2025, 4, 27)] *)
Definition start_date : Z := midnight 19448.
Definition end_date : Z := midnight 20205.

Definition companies : list (string * string) :=
  [ ("SONY", "6758.T");
    ("TOYOTA", "7203.T");
    ("HONDA", "7267.T");
    ("MITSUBISHI CORP", "8058.T");
    ("NISSAN MOTOR CORP", "7201.T");
    ("NIPPON STEEL CORP", "5401.T");
    ("HITACHI", "6501.T");
    ("NINTENDO", "7974.T");
    ("FUJITSU", "6702.T");
    ("JAPAN AIRLINES", "9201.T") ].

(** [data.reset_index()]: the date index becomes the first column. *)
Definition bar_row (b : Bar) : Row :=
  <["Date" := Time (bar_date b)]>
  (<["Open" := Float (bar_open b)]>
  (<["High" := Float (bar_high b)]>
  (<["Low" := Float (bar_low b)]>
  (<["Close" := Float (bar_close b)]>
  (<["Volume" := Int (bar_volume b)]> ∅))))).

Definition reset_index (data : list Bar) : DataFrame :=
  {| columns := ["Date"; "Open"; "High"; "Low"; "Close"; "Volume"];
     rows := bar_row <$> data |}.

(** The body of the [try]. *)
Definition fetch (w : World) (name ticker : string) : result DataFrame :=
  data ← yf_download w ticker start_date end_date;
  let data := reset_index data in
  Ok (setitem_scalar data "Symbol" (Str name)).

(** The [for] loop over [companies.items()], [frames] threaded through. *)
Fixpoint fetch_loop (w : World) (cs : list (string * string))
    (frames : list DataFrame) : script (list DataFrame) :=
  match cs with
  | [] => mret frames
  | (name, ticker) :: cs' =>
      frames' ← match fetch w name ticker with
                | Ok data => mret (frames ++ [data])
                | Err e =>
                    emit (Warning ("Failed to load " +:+ name +:+ ": " +:+ exn_str e));;
                    mret frames
                end;
      fetch_loop w cs' frames'
  end.

Definition column_difference (df : DataFrame) (a b : string) : result (list value) :=
  x ← getitem df a; y ← getitem df b; series_sub x y.

Definition load_tokyo_data (w : World) : script DataFrame :=
  frames ← fetch_loop w companies [];
  lift (df ← concat frames;
        s ← column_difference df "Close" "Open";
        df ← setitem df "Price_change" s;
        s ← column_difference df "High" "Low";
        df ← setitem df "High_Low_Spread" s;
        d ← getitem df "Date";
        d ← to_datetime (parse_datetime w) d;
        setitem df "Date" d).

(** The [else] branch of the data-source choice. *)
Definition load_upload (w : World) : script DataFrame :=
  emit (Widget "tokyo_index.csv");;
  match uploaded_file w with
  | Some file =>
      df ← lift (read_csv w file);
      df ← (if decide ("Date" ∈ columns df) then
              lift (d ← getitem df "Date";
                    d ← to_datetime (parse_datetime w) d;
                    setitem df "Date" d)
            else mret df);
      emit (Success "Custom dataset loaded!");;
      mret df
  | None =>
      emit (Info "Please upload a CSV file to continue.");;
      st_stop
  end.

Definition load (w : World) : script DataFrame :=
  match data_source w with
  | TokyoStockDataset => load_tokyo_data w
  | UploadCSV => load_upload w
  end.

(** [df = df[df['Symbol'] == selected_stock]] *)
Definition symbol_filter (df : DataFrame) (selected_stock : value) : result DataFrame :=
  s ← getitem df "Symbol";
  Ok (boolean_index df (series_eq s selected_stock)).

(** [df = df[(df['Date'].dt.date >= user_start) & (df['Date'].dt.date <= user_end)]] *)
Definition date_filter (df : DataFrame) (user_start user_end : Z) : result DataFrame :=
  s ← getitem df "Date";
  lo ← dt_date s;
  s ← getitem df "Date";
  hi ← dt_date s;
  Ok (boolean_index df
        (zip_with andb ((λ d, date_ge d user_start) <$> lo)
                       ((λ d, date_le d user_end) <$> hi))).

(** [st.sidebar.selectbox]: the entry at the chosen position, the first
    one when the position is stale, [None] when there are no options. *)
Definition selectbox (options : list value) (choice : nat) : value :=
  match options !! choice with
  | Some v => v
  | None => from_option id NoneV (head options)
  end.

(** [df['Date'].min().date()] and its twin. *)
Definition min_date (df : DataFrame) : result (option Z) :=
  s ← getitem df "Date"; t ← series_min s; Ok (date_of_ns <$> (t : option Z)).

Definition max_date (df : DataFrame) : result (option Z) :=
  s ← getitem df "Date"; t ← series_max s; Ok (date_of_ns <$> (t : option Z)).

Definition convert_df_to_csv (w : World) (df : DataFrame) : string := to_csv w df.

(** Both charts plot Close against Date and refuse a frame that lacks
    either. *)
Definition line_chart_data (df : DataFrame) : result unit :=
  if decide ("Date" ∈ columns df) then
    if decide ("Close" ∈ columns df) then Ok tt
    else Err (ValueError "Could not interpret value `Close` for `y`")
  else Err (ValueError "Could not interpret value `Date` for `x`").

(** The symbol selection of the page, when the frame has the column. *)
Definition select_symbol (w : World) (df : DataFrame) : script (DataFrame * option value) :=
  emit (SidebarHeader "Stock Selection");;
  if decide ("Symbol" ∈ columns df) then
    symbols ← lift (s ← getitem df "Symbol"; Ok (unique s));
    emit (Widget "Choose a stock:");;
    let selected_stock := selectbox symbols (stock_choice w) in
    df ← lift (symbol_filter df selected_stock);
    mret (df, Some selected_stock)
  else mret (df, None).

Definition select_dates (w : World) (df : DataFrame) : script DataFrame :=
  emit (SidebarHeader "Date Range Filter");;
  lo ← lift (min_date df);
  hi ← lift (max_date df);
  emit (Widget "Start date");;
  user_start ← lift (date_input w "Start date" lo hi lo);
  emit (Widget "End date");;
  user_end ← lift (date_input w "End date" lo hi hi);
  lift (date_filter df user_start user_end).

Definition render (w : World) (df : DataFrame) (selected_stock : option value) : script unit :=
  emit (Subheader "📊 Closing Price Trend");;
  match chart_type w with
  | StaticSeaborn =>
      lift (line_chart_data df);;
      emit (Pyplot df (if decide ("Symbol" ∈ columns df) then selected_stock else None))
  | InteractivePlotly =>
      lift (line_chart_data df);;
      emit (PlotlyChart df)
  end;;
  emit (Widget "Show full dataset");;
  if show_full_dataset w then emit (ShowDataframe df) else mret tt.

(** The whole page, top to bottom. *)
Definition main (w : World) : script unit :=
  emit (Title "📈 Tokyo Stock Price Explorer");;
  emit (Write "Explore major Japanese companies' stock prices or upload your own dataset.");;
  emit (SidebarHeader "Data Source");;
  emit (Widget "Choose data source:");;
  df ← load w;
  '(df, selected_stock) ← select_symbol w df;
  df ← select_dates w df;
  emit (SidebarHeader "Chart Type");;
  emit (Widget "Select chart type:");;
  emit (DownloadButton "Download current data as CSV" (convert_df_to_csv w df)
          "filtered_stock_data.csv" "text/csv");;
  render w df selected_stock.

(** The two filters of the page one after the other, on explicit
    parameters: the symbol filter is skipped when the frame has no Symbol
    column. *)
Definition select (df : DataFrame) (selected_stock : value) (user_start user_end : Z) :
    result DataFrame :=
  df ← (if decide ("Symbol" ∈ columns df) then symbol_filter df selected_stock else Ok df);
  date_filter df user_start user_end.

(** ** Vocabulary of the statements *)

(** The calendar date of a row, when its Date cell is a timestamp. *)
Definition row_day (r : Row) : option Z :=
  match r !! "Date" with
  | Some (Time t) => Some (date_of_ns t)
  | _ => None
  end.

Definition in_range (user_start user_end : Z) (r : Row) : bool :=
  date_ge (row_day r) user_start && date_le (row_day r) user_end.

Definition is_datetime (v : value) : bool :=
  match v with
  | Time _ | NaT => true
  | _ => false
  end.

(** A frame whose Date column is [datetime64]: what both loaders leave
    behind when the column exists. *)
Definition datetime_frame (df : DataFrame) : Prop :=
  "Date" ∈ columns df ∧ Forall (λ r, is_datetime (cell "Date" r) = true) (rows df).

Definition has_symbol (selected_stock : value) (r : Row) : bool :=
  py_eq (cell "Symbol" r) selected_stock.

(** The rows [select] keeps. *)
Definition selected (sel : value) (s e : Z) (df : DataFrame) (r : Row) : Prop :=
  ("Symbol" ∈ columns df → has_symbol sel r = true) ∧ in_range s e r = true.

#[global] Instance selected_dec sel s e df r : Decision (selected sel s e df r).
Proof. unfold selected. apply _. Defined.

(** ** Sample inputs *)

Definition price_cell_row (symbol : string) (t : Z) (close : float) : Row :=
  <["Date" := Time t]> (<["Symbol" := Str symbol]> (<["Close" := Float close]> ∅)).

(** Three SONY rows (2024-01-01 at midnight, 2024-01-03 at noon, 2024-01-05
    at 23:00) between two TOYOTA rows. *)
Definition sample_frame : DataFrame :=
  {| columns := ["Date"; "Symbol"; "Close"];
     rows := [ price_cell_row "TOYOTA" (midnight 19723) 2600;
               price_cell_row "SONY" (midnight 19723) 13;
               price_cell_row "SONY" (midnight 19725 + 43200000000000) 12.5;
               price_cell_row "SONY" (midnight 19727 + 82800000000000) 11;
               price_cell_row "TOYOTA" (midnight 19730) 2650 ] |}.

Definition sample_selection : DataFrame :=
  {| columns := ["Date"; "Symbol"; "Close"];
     rows := [ price_cell_row "SONY" (midnight 19723) 13;
               price_cell_row "SONY" (midnight 19725 + 43200000000000) 12.5;
               price_cell_row "SONY" (midnight 19727 + 82800000000000) 11 ] |}.

(** ** What the loader builds *)

Definition frame_columns : list string :=
  ["Date"; "Open"; "High"; "Low"; "Close"; "Volume"; "Symbol"].

Definition price_columns : list string :=
  frame_columns ++ ["Price_change"; "High_Low_Spread"].

(** A bar of company [name] after the [try] body. *)
Definition tagged_row (name : string) (b : Bar) : Row :=
  <["Symbol" := Str name]> (bar_row b).

(** The same bar in the frame [load_tokyo_data] returns. *)
Definition price_row (name : string) (b : Bar) : Row :=
  <["Date" := Time (bar_date b)]>
  (<["High_Low_Spread" := Float (PrimFloat.sub (bar_high b) (bar_low b))]>
  (<["Price_change" := Float (PrimFloat.sub (bar_close b) (bar_open b))]>
  (tagged_row name b))).

(** The companies whose download succeeded, with their bars, and the
    warnings for the others, both in the order of [companies]. *)
Definition fetched (w : World) (cs : list (string * string)) : list (string * list Bar) :=
  '(name, ticker) ← cs;
  match yf_download w ticker start_date end_date with
  | Ok bars => [(name, bars)]
  | Err _ => []
  end.

Definition failures (w : World) (cs : list (string * string)) : list event :=
  '(name, ticker) ← cs;
  match yf_download w ticker start_date end_date with
  | Ok _ => []
  | Err e => [Warning ("Failed to load " +:+ name +:+ ": " +:+ exn_str e)]
  end.

Definition tagged_frame (f : string * list Bar) : DataFrame :=
  setitem_scalar (reset_index f.2) "Symbol" (Str f.1).

Definition bars_of (fs : list (string * list Bar)) : list (string * Bar) :=
  '(name, bars) ← fs; (λ b, (name, b)) <$> bars.

(** The derived columns of one row: the four price cells and the two
    derived cells are there, and the derived ones are the differences. *)
Definition derived_columns_hold (r : Row) : Prop :=
  ∃ o h l c pc hl,
    r !! "Open" = Some o ∧ r !! "High" = Some h ∧
    r !! "Low" = Some l ∧ r !! "Close" = Some c ∧
    r !! "Price_change" = Some pc ∧ r !! "High_Low_Spread" = Some hl ∧
    value_sub c o = Ok pc ∧ value_sub h l = Ok hl.

(** ** Sample worlds *)

(** A world with the given source, provider, uploaded file and CSV
    reader; dates are read as ISO days of January 2024 only, the widgets
    return their default value, the chart is the static one. *)
Definition sample_world (src : source) (download : string → result (list Bar))
    (file : option string) (reader : string → result DataFrame) : World :=
  {| data_source := src;
     yf_download := λ ticker _ _, download ticker;
     uploaded_file := file;
     read_csv := reader;
     parse_datetime := λ v, match v with
                            | Str "2024-01-05" => Some (midnight 19727)
                            | _ => None
                            end;
     stock_choice := 0;
     date_input := λ _ _ _ v, match v with
                              | Some d => Ok d
                              | None => Err (ValueError "NaTType does not support strftime")
                              end;
     chart_type := StaticSeaborn;
     show_full_dataset := false;
     to_csv := λ _, "" |}.

Definition no_reader (file : string) : result DataFrame :=
  Err (OtherError "No columns to parse from file").

Definition sony_bars : list Bar :=
  [ {| bar_date := midnight 19725; bar_open := 12.5; bar_high := 13.25;
       bar_low := 12; bar_close := 13; bar_volume := 4100 |};
    {| bar_date := midnight 19726; bar_open := 13; bar_high := 13.5;
       bar_low := 11.75; bar_close := 12.25; bar_volume := 5200 |} ].

(** Remote mode, every download refused. *)
Definition all_fail_world : World :=
  sample_world TokyoStockDataset (λ _, Err (OtherError "connection refused")) None no_reader.

(** Remote mode, SONY answers and the nine others are refused. *)
Definition sony_only_world : World :=
  sample_world TokyoStockDataset
    (λ ticker, if String.eqb ticker "6758.T" then Ok sony_bars
               else Err (OtherError "connection refused"))
    None no_reader.

(** Upload mode, no file chosen yet. *)
Definition no_file_world : World :=
  sample_world UploadCSV (λ _, Err (OtherError "connection refused")) None no_reader.

(** Upload mode with a file of one price bar, as [read_csv] parses it. *)
Definition prices_csv : string :=
  "Date,Open,High,Low,Close
2024-01-05,10.0,12.0,9.5,11.0
".

Definition prices_frame : DataFrame :=
  {| columns := ["Date"; "Open"; "High"; "Low"; "Close"];
     rows := [ <["Date" := Str "2024-01-05"]>
               (<["Open" := Float 10]>
               (<["High" := Float 12]>
               (<["Low" := Float 9.5]>
               (<["Close" := Float 11]> ∅)))) ] |}.

Definition prices_upload_world : World :=
  sample_world UploadCSV (λ _, Err (OtherError "connection refused")) (Some prices_csv)
    (λ file, if String.eqb file prices_csv then Ok prices_frame else no_reader file).

(** Upload mode with a file that has no Date column. *)
Definition undated_csv : string :=
  "Open,Close
10.0,11.0
".

Definition undated_frame : DataFrame :=
  {| columns := ["Open"; "Close"];
     rows := [ <["Open" := Float 10]> (<["Close" := Float 11]> ∅) ] |}.

Definition undated_upload_world : World :=
  sample_world UploadCSV (λ _, Err (OtherError "connection refused")) (Some undated_csv)
    (λ file, if String.eqb file undated_csv then Ok undated_frame else no_reader file).

(** The elements that belong to the stages after loading: symbol and date
    selection, export, charts and the table. *)
Definition after_load (ev : event) : bool :=
  match ev with
  | SidebarHeader "Stock Selection" | SidebarHeader "Date Range Filter"
  | SidebarHeader "Chart Type" => true
  | Widget "Choose a stock:" | Widget "Start date" | Widget "End date"
  | Widget "Select chart type:" | Widget "Show full dataset" => true
  | Subheader _ | DownloadButton _ _ _ _ | Pyplot _ _ | PlotlyChart _
  | ShowDataframe _ => true
  | _ => false
  end.

(** ** Further vocabulary and sample inputs *)

Definition is_warning (ev : event) : bool :=
  match ev with
  | Warning _ => true
  | _ => false
  end.

(** The companies that answered with at least one bar, in order. *)
Definition names_with_bars (fs : list (string * list Bar)) : list string :=
  '(name, bars) ← fs;
  match bars with
  | [] => []
  | _ :: _ => [name]
  end.

(** The step of [unique]: a value joins the ones seen unless its key is
    among them. *)
Definition unique_step (seen : list value) (v : value) : list value :=
  if existsb (same_key v) seen then seen else seen ++ [v].

(** The downloads of [sony_only_world] in an otherwise different world:
    upload mode is off the table, no date string parses, every date input
    answers day 0, the chart is the interactive one and the table is
    shown. *)
Definition sony_only_plotly_world : World :=
  {| data_source := TokyoStockDataset;
     yf_download := yf_download sony_only_world;
     uploaded_file := Some prices_csv;
     read_csv := no_reader;
     parse_datetime := λ _, None;
     stock_choice := 7;
     date_input := λ _ lo _ _, Ok (default 0%Z lo);
     chart_type := InteractivePlotly;
     show_full_dataset := true;
     to_csv := λ df, "Date,Open,High,Low,Close,Volume,Symbol,Price_change,High_Low_Spread" |}.




(** * Properties *)

(** ** Monad bookkeeping *)

Lemma result_bind_Ok {A B : Type} (r : result A) (f : A → result B) (b : B) :
  r ≫= f = Ok b → ∃ a, r = Ok a ∧ f a = Ok b.
Proof. destruct r as [a|e]; [by exists a | done]. Qed.

Ltac bind_ok H :=
  repeat match type of H with
         | (_ ≫= _) = Ok _ =>
             let a := fresh "a" in
             let Ha := fresh "Ha" in
             let H' := fresh "H" in
             destruct (result_bind_Ok _ _ _ H) as (a & Ha & H');
             clear H; rename H' into H
         end.

(** Closed decidable facts, by evaluation. *)
Ltac by_decide := apply (bool_decide_unpack _); vm_compute; exact I.

(** ** Boolean masks are list filters *)

Section masks.
Context (p q : Row → bool).

Lemma mask_rows_fmap (rs : list Row) :
  mask_rows rs (p <$> rs) = filter (λ r, p r = true) rs.
Proof.
  induction rs as [|r rs IH]; [done|].
  cbn [fmap list_fmap mask_rows]. rewrite filter_cons, <- IH.
  destruct (p r) eqn:E; by case_decide.
Qed.

Lemma zip_with_andb_fmap (rs : list Row) :
  zip_with andb (p <$> rs) (q <$> rs) = (λ r, p r && q r) <$> rs.
Proof. induction rs as [|r rs IH]; [done|]. cbn. by f_equal. Qed.
End masks.

Lemma filter_Forall_id {A : Type} (P : A → Prop) `{!∀ x, Decision (P x)} (l : list A) :
  Forall P l → filter P l = l.
Proof.
  induction 1 as [|x l Hx _ IH]; [done|].
  by rewrite filter_cons_True, IH.
Qed.

Lemma Forall_filter_keep {A : Type} (P Q : A → Prop) `{!∀ x, Decision (Q x)} (l : list A) :
  Forall P l → Forall P (filter Q l).
Proof.
  intros HF. eapply Forall_forall. intros x Hx%list_elem_of_filter.
  eapply Forall_forall in HF; [done | tauto].
Qed.

(** ** The date filter *)


Lemma dt_date_cells (rs : list Row) (ds : list (option Z)) :
  dt_date (cell "Date" <$> rs) = Ok ds →
  ds = row_day <$> rs ∧ Forall (λ r, is_datetime (cell "Date" r) = true) rs.
Proof.
  revert ds. induction rs as [|r rs IH]; intros ds H.
  - cbn in H. by injection H as <-.
  - cbn [fmap list_fmap dt_date] in H. bind_ok H. injection H as <-.
    destruct (IH _ Ha0) as [-> HF]. split.
    + cbn. f_equal. unfold cell, row_day in *.
      destruct (r !! "Date") as [[]|]; cbn in Ha; congruence.
    + constructor; [|done]. by destruct (cell "Date" r).
Qed.

Lemma dt_date_total (rs : list Row) :
  Forall (λ r, is_datetime (cell "Date" r) = true) rs →
  dt_date (cell "Date" <$> rs) = Ok (row_day <$> rs).
Proof.
  induction 1 as [|r rs Hr _ IH]; [done|].
  cbn [fmap list_fmap dt_date]. rewrite IH. unfold cell, row_day in *.
  by destruct (r !! "Date") as [[]|].
Qed.

Lemma date_filter_rows (df df' : DataFrame) (s e : Z) :
  date_filter df s e = Ok df' →
  datetime_frame df ∧
  df' = {| columns := columns df; rows := filter (λ r, in_range s e r = true) (rows df) |}.
Proof.
  unfold date_filter, getitem. intros H. case_decide as Hc; [|done].
  cbn in H. bind_ok H. injection H as <-.
  apply dt_date_cells in Ha as [-> HF]. apply dt_date_cells in Ha0 as [-> _].
  split; [done|]. unfold boolean_index. f_equal.
  rewrite <- !list_fmap_compose, zip_with_andb_fmap. apply mask_rows_fmap.
Qed.

Lemma date_filter_total (df : DataFrame) (s e : Z) :
  datetime_frame df →
  date_filter df s e =
    Ok {| columns := columns df; rows := filter (λ r, in_range s e r = true) (rows df) |}.
Proof.
  intros [Hc HF]. unfold date_filter, getitem. rewrite decide_True by done.
  cbn. rewrite dt_date_total by done. cbn. unfold boolean_index. do 2 f_equal.
  rewrite <- !list_fmap_compose, zip_with_andb_fmap. apply mask_rows_fmap.
Qed.

Lemma in_range_spec (s e : Z) (r : Row) :
  in_range s e r = true ↔ ∃ d, row_day r = Some d ∧ (s ≤ d ≤ e)%Z.
Proof.
  unfold in_range, date_ge, date_le. destruct (row_day r) as [d|].
  - rewrite andb_true_iff, !Z.leb_le. split.
    + intros [? ?]. eauto.
    + intros (d' & [= <-] & ? & ?). done.
  - split; [done | by intros (? & ? & _)].
Qed.

Lemma date_of_ns_midnight (day tod : Z) :
  (0 ≤ tod < ns_per_day)%Z → date_of_ns (midnight day + tod) = day.
Proof.
  intros H. unfold date_of_ns, midnight.
  rewrite Z.add_comm, Z.div_add by done.
  rewrite Z.div_small by done. lia.
Qed.

(** ** The symbol filter *)


Lemma symbol_filter_rows (df : DataFrame) (sel : value) :
  "Symbol" ∈ columns df →
  symbol_filter df sel =
    Ok {| columns := columns df; rows := filter (λ r, has_symbol sel r = true) (rows df) |}.
Proof.
  intros Hc. unfold symbol_filter, getitem. rewrite decide_True by done.
  cbn. unfold boolean_index, series_eq. do 2 f_equal.
  rewrite <- list_fmap_compose. apply (mask_rows_fmap (has_symbol sel)).
Qed.

Lemma py_eq_Str (v : value) (s : string) : py_eq v (Str s) = true ↔ v = Str s.
Proof.
  destruct v; cbn; try (split; [done | congruence]).
  rewrite String.eqb_eq. split; congruence.
Qed.

(** ** Both filters *)


Lemma select_rows (df : DataFrame) (sel : value) (s e : Z) :
  datetime_frame df →
  select df sel s e =
    Ok {| columns := columns df; rows := filter (selected sel s e df) (rows df) |}.
Proof.
  intros [Hc HF]. unfold select. case_decide as Hs.
  - rewrite symbol_filter_rows by done. cbn.
    rewrite date_filter_total.
    + cbn. do 2 f_equal. rewrite list_filter_filter.
      apply list_filter_iff. unfold selected. tauto.
    + split; [done|]. cbn. by apply Forall_filter_keep.
  - cbn. rewrite date_filter_total by done. do 2 f_equal.
    apply list_filter_iff. unfold selected. tauto.
Qed.


Lemma selected_columns (sel : value) (s e : Z) (df df' : DataFrame) (r : Row) :
  columns df' = columns df → selected sel s e df' r ↔ selected sel s e df r.
Proof. unfold selected. by intros ->. Qed.

Lemma select_Ok_rows (df df' : DataFrame) (sel : value) (s e : Z) :
  select df sel s e = Ok df' →
  df' = {| columns := columns df; rows := filter (selected sel s e df) (rows df) |} ∧
  datetime_frame df'.
Proof.
  unfold select. intros H. bind_ok H.
  apply date_filter_rows in H as [[Hc HF] ->].
  assert (columns a = columns df ∧
          filter (λ r, in_range s e r = true) (rows a) =
            filter (selected sel s e df) (rows df)) as [Ecols Erows].
  { case_decide as Hs.
    - rewrite symbol_filter_rows in Ha by done. injection Ha as <-. cbn.
      split; [done|]. rewrite list_filter_filter.
      apply list_filter_iff. unfold selected. tauto.
    - injection Ha as <-. split; [done|].
      apply list_filter_iff. unfold selected. tauto. }
  rewrite Ecols, Erows in *. split; [done|].
  split; [done|]. cbn. rewrite <- Erows. by apply Forall_filter_keep.
Qed.

(** ** Properties of the filters *)




(** C10: the date filter looks at the calendar date of a timestamp only.
    A row of the input stamped [tod] nanoseconds into day [day] is kept
    exactly when [user_start <= day <= user_end], whatever [tod] is. *)
Theorem date_filter_calendar_date (df : DataFrame) (user_start user_end : Z)
    (r : Row) (day tod : Z) :
  datetime_frame df →
  r ∈ rows df →
  r !! "Date" = Some (Time (midnight day + tod)) →
  (0 ≤ tod < ns_per_day)%Z →
  ∃ df', date_filter df user_start user_end = Ok df' ∧
    (r ∈ rows df' ↔ (user_start ≤ day ≤ user_end)%Z).
Proof.
  intros Hdf Hr Hd Htod. eexists. split; [by apply date_filter_total|]. cbn.
  rewrite list_elem_of_filter, in_range_spec. unfold row_day.
  rewrite Hd, date_of_ns_midnight by done. split.
  - by intros [(d & [= <-] & ?) _].
  - intros ?. split; [eauto | done].
Qed.

Lemma date_filter_calendar_date_witness :
  ∃ df', date_filter sample_frame 19723 19727 = Ok df' ∧
    (price_cell_row "SONY" (midnight 19727 + 82800000000000) 11 ∈ rows df' ↔
     (19723 ≤ 19727 ≤ 19727)%Z).
Proof.
  apply (date_filter_calendar_date sample_frame 19723 19727 _ 19727 82800000000000).
  - split; [by_decide | by repeat constructor].
  - by apply (list_elem_of_lookup_2 _ 3).
  - reflexivity.
  - by vm_compute.
Defined.



(** C7: filtering is idempotent. When the symbol and date filters, run
    with some selection and bounds, return a frame, running them again on
    that frame with the same selection and bounds returns it unchanged. *)
Theorem select_idempotent (df df' : DataFrame) (selected_stock : value)
    (user_start user_end : Z) :
  select df selected_stock user_start user_end = Ok df' →
  select df' selected_stock user_start user_end = Ok df'.
Proof.
  intros [-> Hdt]%select_Ok_rows. rewrite select_rows by done. cbn. do 2 f_equal.
  rewrite (list_filter_iff _ (selected selected_stock user_start user_end df)).
  - apply filter_Forall_id, Forall_forall.
    by intros r [? _]%list_elem_of_filter.
  - intros r. by apply selected_columns.
Qed.

Lemma select_idempotent_witness :
  select sample_selection (Str "SONY") 19723 19727 = Ok sample_selection.
Proof.
  apply (select_idempotent sample_frame sample_selection (Str "SONY") 19723 19727).
  by vm_compute.
Defined.

(** C8: the filters are stable. The rows of the frame they return are rows
    of the input in the order they had there. *)
Theorem select_stable (df df' : DataFrame) (selected_stock : value)
    (user_start user_end : Z) :
  select df selected_stock user_start user_end = Ok df' →
  rows df' `sublist_of` rows df.
Proof.
  intros [-> _]%select_Ok_rows. cbn. apply sublist_filter.
Qed.

Lemma select_stable_witness :
  rows sample_selection `sublist_of` rows sample_frame.
Proof.
  apply (select_stable sample_frame sample_selection (Str "SONY") 19723 19727).
  by vm_compute.
Defined.

(** ** The remote loader *)

Lemma script_bind_Ret {A B : Type} (log : list event) (a : A) (f : A → script B) :
  ((log, Ret a) : script A) ≫= f = (log ++ (f a).1, (f a).2).
Proof. unfold mbind, script_mbind, script_bind. by destruct (f a). Qed.

Lemma fetch_loop_spec (w : World) (cs : list (string * string)) (frames : list DataFrame) :
  fetch_loop w cs frames =
    (failures w cs, Ret (frames ++ (tagged_frame <$> fetched w cs))).
Proof.
  revert frames. induction cs as [|[name ticker] cs IH]; intros frames.
  - cbn. by rewrite app_nil_r.
  - cbn [fetch_loop]. unfold fetch, fetched, failures. rewrite !bind_cons.
    fold (fetched w cs) (failures w cs).
    destruct (yf_download w ticker start_date end_date) as [bars|e]; cbn.
    + rewrite IH. cbn. by rewrite <- app_assoc.
    + rewrite IH. done.
Qed.

Section frames_of_items.
Context {X : Type}.
Implicit Types (f : X → Row) (g h : X → value) (items : list X).

Lemma getitem_fmap cols f items c :
  c ∈ cols →
  getitem {| columns := cols; rows := f <$> items |} c = Ok ((λ x, cell c (f x)) <$> items).
Proof.
  intros Hc. unfold getitem. cbn. rewrite decide_True by done.
  by rewrite <- list_fmap_compose.
Qed.

Lemma series_sub_fmap g h (d : X → value) items :
  (∀ x, value_sub (g x) (h x) = Ok (d x)) →
  series_sub (g <$> items) (h <$> items) = Ok (d <$> items).
Proof.
  intros Hd. induction items as [|x items IH]; [done|].
  cbn [fmap list_fmap series_sub]. rewrite Hd. cbn.
  change (list_fmap X value g items) with (g <$> items).
  change (list_fmap X value h items) with (h <$> items).
  by rewrite IH.
Qed.

Lemma to_datetime_fmap parse g h items :
  (∀ x, to_datetime_value parse (g x) = Ok (h x)) →
  to_datetime parse (g <$> items) = Ok (h <$> items).
Proof.
  intros Hd. induction items as [|x items IH]; [done|].
  cbn [fmap list_fmap to_datetime]. rewrite Hd. cbn.
  change (list_fmap X value g items) with (g <$> items).
  by rewrite IH.
Qed.

Lemma setitem_fmap cols f g items c :
  setitem {| columns := cols; rows := f <$> items |} c (g <$> items) =
    Ok {| columns := add_column c cols; rows := (λ x, <[c := g x]> (f x)) <$> items |}.
Proof.
  unfold setitem. cbn. rewrite decide_True by (by rewrite !length_fmap).
  do 2 f_equal. induction items as [|x items IH]; [done|]. cbn. by f_equal.
Qed.
End frames_of_items.

Lemma union_columns_same (frames : list DataFrame) :
  frames ≠ [] → Forall (λ df, columns df = frame_columns) frames →
  union_columns frames = frame_columns.
Proof.
  assert (∀ fs, Forall (λ df, columns df = frame_columns) fs →
            foldl (λ acc df, add_columns acc (columns df)) frame_columns fs = frame_columns)
    as Hstay.
  { induction 1 as [|df fs Hdf _ IH]; [done|]. cbn. by rewrite Hdf. }
  destruct frames as [|df fs]; [done|]. intros _ [Hdf Hfs]%Forall_cons.
  unfold union_columns. cbn. rewrite Hdf. by apply Hstay.
Qed.

Lemma concat_tagged (fs : list (string * list Bar)) :
  fs ≠ [] →
  concat (tagged_frame <$> fs) =
    Ok {| columns := frame_columns;
          rows := (λ x, tagged_row x.1 x.2) <$> bars_of fs |}.
Proof.
  intros Hne. unfold concat.
  destruct (tagged_frame <$> fs) as [|df dfs] eqn:E; [by destruct fs|].
  rewrite <- E. clear df dfs E. rewrite union_columns_same.
  - do 2 f_equal. unfold bars_of. clear Hne.
    induction fs as [|[name bars] fs IH]; [done|].
    rewrite fmap_cons, !bind_cons, fmap_app, IH. f_equal.
    cbn. rewrite <- !list_fmap_compose. by apply list_fmap_ext.
  - by destruct fs.
  - apply Forall_fmap, Forall_forall. by intros [name bars] _.
Qed.

Lemma load_tokyo_data_spec (w : World) :
  load_tokyo_data w =
    (failures w companies,
     if decide (fetched w companies = []) then
       Raise (ValueError "No objects to concatenate")
     else
       Ret {| columns := price_columns;
              rows := (λ x, price_row x.1 x.2) <$> bars_of (fetched w companies) |}).
Proof.
  unfold load_tokyo_data. rewrite fetch_loop_spec, script_bind_Ret, app_nil_l.
  case_decide as Hf.
  - rewrite Hf. cbn. by rewrite app_nil_r.
  - rewrite concat_tagged by done. cbn.
    unfold column_difference.
    rewrite !getitem_fmap by by_decide. cbn.
    rewrite (series_sub_fmap _ _ (λ x, Float (PrimFloat.sub (bar_close x.2) (bar_open x.2))))
      by done.
    cbn. rewrite setitem_fmap. cbn.
    rewrite !getitem_fmap by by_decide. cbn.
    rewrite (series_sub_fmap _ _ (λ x, Float (PrimFloat.sub (bar_high x.2) (bar_low x.2))))
      by done.
    cbn. rewrite setitem_fmap. cbn.
    rewrite !getitem_fmap by by_decide. cbn.
    rewrite (to_datetime_fmap _ _ (λ x, Time (bar_date x.2))) by done.
    cbn. rewrite setitem_fmap. by rewrite app_nil_r.
Qed.

Lemma has_symbol_price_row (name selected_name : string) (b : Bar) :
  has_symbol (Str selected_name) (price_row name b) = true ↔ name = selected_name.
Proof.
  unfold has_symbol. rewrite py_eq_Str.
  assert (cell "Symbol" (price_row name b) = Str name) as -> by reflexivity.
  split; congruence.
Qed.

Lemma filter_price_rows (name : string) (items : list (string * Bar)) :
  filter (λ r, has_symbol (Str name) r = true) ((λ x, price_row x.1 x.2) <$> items) =
    (λ x, price_row x.1 x.2) <$> filter (λ x, x.1 = name) items.
Proof.
  induction items as [|[n b] items IH]; [done|].
  rewrite fmap_cons, !filter_cons, IH. cbn [fst snd].
  destruct (decide (n = name)) as [->|Hn].
  - by rewrite decide_True by (by apply has_symbol_price_row).
  - by rewrite decide_False by (by rewrite has_symbol_price_row).
Qed.

Lemma filter_bars_other (name : string) (fs : list (string * list Bar)) :
  name ∉ fs.*1 → filter (λ x : string * Bar, x.1 = name) (bars_of fs) = [].
Proof.
  induction fs as [|[n bars] fs IH]; [done|].
  rewrite fmap_cons, not_elem_of_cons. intros [Hn Hfs]. cbn [fst] in Hn.
  unfold bars_of. rewrite bind_cons, filter_app. fold (bars_of fs).
  rewrite IH, app_nil_r by done.
  induction bars as [|b bars IHb]; [done|].
  rewrite fmap_cons, filter_cons_False by (cbn; congruence). done.
Qed.

Lemma filter_bars_same (name : string) (bars : list Bar) (fs : list (string * list Bar)) :
  NoDup fs.*1 → (name, bars) ∈ fs →
  filter (λ x : string * Bar, x.1 = name) (bars_of fs) = (λ b, (name, b)) <$> bars.
Proof.
  induction fs as [|[n bs] fs IH]; [by intros _ ?%elem_of_nil|].
  rewrite fmap_cons, NoDup_cons. cbn [fst]. intros [Hn Hnd] Hin.
  unfold bars_of. rewrite bind_cons, filter_app. fold (bars_of fs).
  apply elem_of_cons in Hin as [[= <- <-]|Hin].
  - rewrite filter_bars_other, app_nil_r by done.
    apply filter_Forall_id, Forall_fmap, Forall_forall. by intros b _.
  - assert (n ≠ name) as Hne.
    { intros ->. apply Hn. apply list_elem_of_fmap. by eexists (_, _). }
    rewrite IH by done.
    replace (filter _ ((λ b, (n, b)) <$> bs)) with (@nil (string * Bar)); [done|].
    symmetry. clear -Hne. induction bs as [|b bs IHb]; [done|].
    by rewrite fmap_cons, filter_cons_False by (cbn; congruence).
Qed.

Section downloads.
Context (w : World).

Lemma elem_of_fetched (name : string) (bars : list Bar) (cs : list (string * string)) :
  (name, bars) ∈ fetched w cs ↔
  ∃ ticker, (name, ticker) ∈ cs ∧ yf_download w ticker start_date end_date = Ok bars.
Proof.
  unfold fetched. rewrite list_elem_of_bind. split.
  - intros ([n t] & Hin & Hcs).
    destruct (yf_download w t start_date end_date) as [bs|e] eqn:E.
    + apply list_elem_of_singleton in Hin as [= <- <-]. eauto.
    + by apply elem_of_nil in Hin.
  - intros (t & Hcs & E). exists (name, t). rewrite E.
    split; [by apply list_elem_of_singleton | done].
Qed.

Lemma elem_of_failures (name ticker : string) (e : exn) (cs : list (string * string)) :
  (name, ticker) ∈ cs → yf_download w ticker start_date end_date = Err e →
  Warning ("Failed to load " +:+ name +:+ ": " +:+ exn_str e) ∈ failures w cs.
Proof.
  intros Hcs E. unfold failures. apply list_elem_of_bind.
  exists (name, ticker). rewrite E. split; [by apply list_elem_of_singleton | done].
Qed.

Lemma fetched_names_sublist (cs : list (string * string)) :
  (fetched w cs).*1 `sublist_of` cs.*1.
Proof.
  induction cs as [|[n t] cs IH]; [done|].
  unfold fetched. rewrite bind_cons. fold (fetched w cs).
  destruct (yf_download w t start_date end_date); cbn.
  - by apply sublist_skip.
  - by apply sublist_cons.
Qed.
End downloads.

Lemma NoDup_fst_agree {A B : Type} (l : list (A * B)) (a : A) (b b' : B) :
  NoDup l.*1 → (a, b) ∈ l → (a, b') ∈ l → b = b'.
Proof.
  induction l as [|[x y] l IH]; [by intros _ ?%elem_of_nil|].
  rewrite fmap_cons, NoDup_cons. cbn [fst]. intros [Hx Hnd] H1 H2.
  apply elem_of_cons in H1 as [H1|H1];
    apply elem_of_cons in H2 as [H2|H2]; simplify_eq; try done.
  - exfalso. apply Hx, list_elem_of_fmap. by eexists (_, _).
  - exfalso. apply Hx, list_elem_of_fmap. by eexists (_, _).
  - by apply IH.
Qed.

Lemma companies_NoDup : NoDup companies.*1.
Proof. by_decide. Qed.

(** ** Properties of loading *)

(** C1 (as amended): in the frame [load_tokyo_data] returns, every row has
    Price_change = Close - Open and High_Low_Spread = High - Low. *)
Theorem load_tokyo_data_derived_columns (w : World) (log : list event) (df : DataFrame) :
  load_tokyo_data w = (log, Ret df) →
  Forall derived_columns_hold (rows df).
Proof.
  rewrite load_tokyo_data_spec. case_decide; [done|]. intros [= _ <-]. cbn.
  apply Forall_fmap, Forall_forall. intros [name b] _.
  exists (Float (bar_open b)), (Float (bar_high b)), (Float (bar_low b)),
         (Float (bar_close b)),
         (Float (PrimFloat.sub (bar_close b) (bar_open b))),
         (Float (PrimFloat.sub (bar_high b) (bar_low b))).
  by repeat split.
Qed.

Lemma load_tokyo_data_derived_columns_witness :
  ∃ log df, load_tokyo_data sony_only_world = (log, Ret df) ∧
            Forall derived_columns_hold (rows df).
Proof.
  eexists _, _. split; [by vm_compute|].
  eapply (load_tokyo_data_derived_columns sony_only_world). by vm_compute.
Defined.

(** C1 (as stated) fails for an uploaded file: the upload branch converts
    the Date column and adds nothing, so the row it loads from a file with
    the four price columns has no Price_change cell. *)
Lemma upload_has_no_derived_columns :
  ∃ log df, load prices_upload_world = (log, Ret df) ∧
            ¬ Forall derived_columns_hold (rows df).
Proof.
  eexists _, _. split; [by vm_compute|].
  intros [(o & h & l & c & pc & hl & _ & _ & _ & _ & Hpc & _) _]%Forall_cons.
  by vm_compute in Hpc.
Qed.

(** C4: a failed download is isolated. If the download of company A
    returns bars and the one of company B raises, [load_tokyo_data] still
    returns a frame; a warning naming B was shown; the rows of the frame
    tagged A are A's bars, in order, with the derived columns; and no row
    is tagged B. *)
Theorem load_tokyo_data_isolates_failure (w : World) (a ticker_a b ticker_b : string)
    (bars : list Bar) (e : exn) :
  (a, ticker_a) ∈ companies →
  (b, ticker_b) ∈ companies →
  yf_download w ticker_a start_date end_date = Ok bars →
  yf_download w ticker_b start_date end_date = Err e →
  ∃ log df, load_tokyo_data w = (log, Ret df) ∧
    Warning ("Failed to load " +:+ b +:+ ": " +:+ exn_str e) ∈ log ∧
    filter (λ r, has_symbol (Str a) r = true) (rows df) = price_row a <$> bars ∧
    filter (λ r, has_symbol (Str b) r = true) (rows df) = [].
Proof.
  intros Ha Hb Ea Eb.
  assert ((a, bars) ∈ fetched w companies) as Hfa by (apply elem_of_fetched; eauto).
  assert (NoDup (fetched w companies).*1) as Hnd
    by (eapply sublist_NoDup; [apply companies_NoDup | apply fetched_names_sublist]).
  rewrite load_tokyo_data_spec.
  rewrite decide_False by (intros E; rewrite E in Hfa; by apply elem_of_nil in Hfa).
  eexists _, _. split; [reflexivity|].
  split; [by eapply elem_of_failures|]. cbn [rows]. rewrite !filter_price_rows. split.
  - rewrite (filter_bars_same a bars) by done. by rewrite <- list_fmap_compose.
  - rewrite filter_bars_other; [done|].
    intros ([n bs] & -> & (t & Hin & Et)%elem_of_fetched)%list_elem_of_fmap.
    cbn in Hin. pose proof (NoDup_fst_agree _ _ _ _ companies_NoDup Hin Hb) as ->.
    congruence.
Qed.

Lemma load_tokyo_data_isolates_failure_witness :
  ∃ log df, load_tokyo_data sony_only_world = (log, Ret df) ∧
    Warning ("Failed to load " +:+ "TOYOTA" +:+ ": " +:+
             exn_str (OtherError "connection refused")) ∈ log ∧
    filter (λ r, has_symbol (Str "SONY") r = true) (rows df) = price_row "SONY" <$> sony_bars ∧
    filter (λ r, has_symbol (Str "TOYOTA") r = true) (rows df) = [].
Proof.
  apply (load_tokyo_data_isolates_failure sony_only_world "SONY" "6758.T" "TOYOTA" "7203.T").
  - by apply (list_elem_of_lookup_2 _ 0).
  - by apply (list_elem_of_lookup_2 _ 1).
  - reflexivity.
  - reflexivity.
Defined.

(** ** How a run ends *)

(** C9: in upload mode with no file, the run ends at [st.stop()] right
    after the prompt: nothing was raised, and no element of the symbol,
    date, export or chart stages was put on the page. *)
Theorem upload_without_file_stops (w : World) :
  data_source w = UploadCSV →
  uploaded_file w = None →
  ∃ log, main w = (log, Stop) ∧
         last log = Some (Info "Please upload a CSV file to continue.") ∧
         Forall (λ ev, after_load ev = false) log.
Proof.
  intros Hsrc Hfile. unfold main, load, load_upload. rewrite Hsrc, Hfile.
  eexists. split; [reflexivity|]. split; [reflexivity|]. by repeat constructor.
Qed.

Lemma upload_without_file_stops_witness :
  ∃ log, main no_file_world = (log, Stop) ∧
         last log = Some (Info "Please upload a CSV file to continue.") ∧
         Forall (λ ev, after_load ev = false) log.
Proof. apply (upload_without_file_stops no_file_world); reflexivity. Defined.

(** C3 fails on the code: a run can end with an exception nobody caught.
    With every download refused, [pd.concat] is given no frames and raises
    ValueError; with an uploaded file that has no Date column, the date
    range step raises KeyError. *)
Theorem run_ends_with_uncaught_exception :
  (main all_fail_world).2 = Raise (ValueError "No objects to concatenate") ∧
  (main undated_upload_world).2 = Raise (KeyError "Date").
Proof. split; by vm_compute. Qed.

(** ** The page runs the same two filters *)

Lemma script_bind_Ret_inv {A B : Type} (m : script A) (f : A → script B)
    (log : list event) (b : B) :
  m ≫= f = (log, Ret b) →
  ∃ l1 a l2, m = (l1, Ret a) ∧ f a = (l2, Ret b) ∧ log = l1 ++ l2.
Proof.
  destruct m as [l1 [a| |e]]; unfold mbind, script_mbind, script_bind; [|done..].
  destruct (f a) as [l2 o] eqn:E. intros [= <- ->]. by exists l1, a, l2.
Qed.

Lemma lift_Ret_inv {A : Type} (r : result A) (log : list event) (a : A) :
  lift r = (log, Ret a) → r = Ok a.
Proof. destruct r; cbn; congruence. Qed.

Ltac script_inv H :=
  repeat match type of H with
         | (_ ≫= _) = (_, Ret _) =>
             let l1 := fresh "l" in
             let a := fresh "a" in
             let l2 := fresh "l" in
             let Ha := fresh "Ha" in
             let H' := fresh "H" in
             let E := fresh "E" in
             destruct (script_bind_Ret_inv _ _ _ _ H) as (l1 & a & l2 & Ha & H' & E);
             clear H; rename H' into H
         end.

(** The frame the page shows is [select] applied to the loaded frame,
    with the stock the select box returned and the two dates the date
    inputs returned. *)
Lemma main_filters_are_select (w : World) (df df1 df2 : DataFrame)
    (stock : option value) (log1 log2 : list event) :
  select_symbol w df = (log1, Ret (df1, stock)) →
  select_dates w df1 = (log2, Ret df2) →
  ∃ user_start user_end,
    select df (default NoneV stock) user_start user_end = Ok df2.
Proof.
  unfold select_symbol, select_dates, select. intros H1 H2.
  script_inv H2. apply lift_Ret_inv in H2. eexists _, _.
  script_inv H1. case_decide as Hs.
  - script_inv H1.
    match goal with
    | Hf : lift (symbol_filter _ _) = _ |- _ => apply lift_Ret_inv in Hf; rename Hf into Hsym
    end.
    injection H1 as _ <- <-. cbn [default from_option id]. rewrite Hsym. exact H2.
  - injection H1 as _ <- <-. exact H2.
Qed.

(** The upload branch adds no column to what [read_csv] returned. *)
Lemma load_upload_columns (w : World) (file : string) (df0 df : DataFrame)
    (log : list event) :
  uploaded_file w = Some file →
  read_csv w file = Ok df0 →
  load_upload w = (log, Ret df) →
  columns df = columns df0.
Proof.
  unfold load_upload. intros -> E H. rewrite E in H. script_inv H.
  match goal with
  | Hl : lift (Ok df0) = _ |- _ => apply lift_Ret_inv in Hl; injection Hl as <-
  end.
  injection H as _ <-.
  match goal with
  | Hd : (if decide _ then _ else _) = _ |- _ => rename Hd into Hdate
  end.
  case_decide as Hd.
  - apply lift_Ret_inv in Hdate. bind_ok Hdate. unfold setitem in Hdate.
    case_decide; [|done]. injection Hdate as <-. cbn.
    unfold add_column. by rewrite decide_True.
  - by injection Hdate as _ <-.
Qed.

(** ** Both loaders leave a datetime Date column *)





(** * Further properties of the script *)

(** ** More on the date filter *)





Lemma in_range_both (s1 e1 s2 e2 : Z) (r : Row) :
  in_range s2 e2 r = true ∧ in_range s1 e1 r = true ↔
  in_range (Z.max s1 s2) (Z.min e1 e2) r = true.
Proof.
  rewrite !in_range_spec. split.
  - intros [(d & Hd & ?) (d' & Hd' & ?)]. exists d. split; [done|].
    assert (d' = d) by congruence. lia.
  - intros (d & Hd & ?). split; exists d; (split; [done | lia]).
Qed.

(** X2: date filters compose by intersecting their ranges. Filtering the
    result of one date filter with other bounds is filtering the input once
    with the later start and the earlier end. *)
Theorem date_filter_twice_intersects (df df1 : DataFrame) (s1 e1 s2 e2 : Z) :
  date_filter df s1 e1 = Ok df1 →
  date_filter df1 s2 e2 = date_filter df (Z.max s1 s2) (Z.min e1 e2).
Proof.
  intros [[Hc HF] ->]%date_filter_rows.
  rewrite !date_filter_total.
  - cbn. do 2 f_equal. rewrite list_filter_filter.
    apply list_filter_iff. intros r. apply in_range_both.
  - done.
  - split; [done|]. cbn. by apply Forall_filter_keep.
Qed.

Lemma date_filter_twice_intersects_witness :
  ∃ df1, date_filter sample_frame 19723 19727 = Ok df1 ∧
         date_filter df1 19725 19730 =
           date_filter sample_frame (Z.max 19723 19725) (Z.min 19727 19730).
Proof.
  eexists. split; [by vm_compute|].
  apply (date_filter_twice_intersects sample_frame _ 19723 19727 19725 19730).
  by vm_compute.
Defined.



(** X4: a frame the filters returned can be filtered again with any other
    stock and bounds without raising, and keeps the columns of the frame
    that was loaded. *)
Theorem select_result_selectable (df df' : DataFrame) (stock stock' : value)
    (s e s' e' : Z) :
  select df stock s e = Ok df' →
  columns df' = columns df ∧
  ∃ df'', select df' stock' s' e' = Ok df'' ∧ columns df'' = columns df.
Proof.
  intros [-> Hdt]%select_Ok_rows. split; [done|].
  eexists. split; [by apply select_rows|]. done.
Qed.

Lemma select_result_selectable_witness :
  columns sample_selection = columns sample_frame ∧
  ∃ df'', select sample_selection (Str "TOYOTA") 19000 19001 = Ok df'' ∧
          columns df'' = columns sample_frame.
Proof.
  apply (select_result_selectable sample_frame sample_selection (Str "SONY") _ 19723 19727).
  by vm_compute.
Defined.

(** ** The bounds offered by the date inputs *)

Lemma cell_Date_Time (r : Row) (t : Z) :
  cell "Date" r = Time t ↔ r !! "Date" = Some (Time t).
Proof.
  unfold cell. destruct (r !! "Date") as [v|]; cbn; [|done].
  split; congruence.
Qed.

Lemma row_day_Some (r : Row) (d : Z) :
  row_day r = Some d ↔ ∃ t, cell "Date" r = Time t ∧ d = date_of_ns t.
Proof.
  unfold row_day, cell, NaN. destruct (r !! "Date") as [[]|]; cbn;
    (split; [intros [= <-]; eauto | intros (t & Ht & ->); by simplify_eq]).
Qed.

Lemma filter_iff_elem {A : Type} (P Q : A → Prop)
    `{!∀ x, Decision (P x), !∀ x, Decision (Q x)} (l : list A) :
  (∀ x, x ∈ l → P x ↔ Q x) → filter P l = filter Q l.
Proof.
  induction l as [|x l IH]; intros HPQ; [done|].
  rewrite !filter_cons, IH by (intros y Hy; apply HPQ; by right).
  apply decide_ext, HPQ. by left.
Qed.

Lemma date_of_ns_mono (t u : Z) : (t ≤ u)%Z → (date_of_ns t ≤ date_of_ns u)%Z.
Proof. intros H. unfold date_of_ns. by apply Z.div_le_mono. Qed.

Section extremum.
Context (pick : Z → Z → Z) (R : Z → Z → Prop).
Context (pick_one : ∀ a b, pick a b = a ∨ pick a b = b).
Context (pick_l : ∀ a b, R (pick a b) a) (pick_r : ∀ a b, R (pick a b) b).
Context (R_refl : ∀ a, R a a) (R_trans : ∀ a b c, R a b → R b c → R a c).

Lemma series_extremum_spec (s : list value) :
  Forall (λ v, is_datetime v = true) s →
  ∃ m, series_extremum pick s = Ok m ∧
       (∀ t, Time t ∈ s → ∃ x, m = Some x ∧ R x t) ∧
       (∀ x, m = Some x → Time x ∈ s).
Proof.
  induction 1 as [|v s Hv _ (m & E & Hall & Hin)].
  - exists None. split; [done|]. split; [by intros t ?%elem_of_nil | done].
  - cbn [series_extremum]. rewrite E. cbn. destruct v as [| | |t| |]; try done.
    + exists (Some (from_option (pick t) t m)). split; [done|]. split.
      * intros u [[= ->]|Hu]%elem_of_cons; eexists; (split; [done|]).
        -- destruct m as [x|]; cbn; [apply pick_l | apply R_refl].
        -- destruct (Hall u Hu) as (x & -> & Hx). cbn.
           eapply R_trans; [apply pick_r | done].
      * intros x [= <-]. destruct m as [y|]; cbn; [|by left].
        destruct (pick_one t y) as [-> | ->]; [by left | right; by apply Hin].
    + exists m. split; [done|]. split.
      * intros u [[=]|Hu]%elem_of_cons. by apply Hall.
      * intros x Hx. right. by apply Hin.
Qed.
End extremum.

Lemma series_min_spec (s : list value) :
  Forall (λ v, is_datetime v = true) s →
  ∃ m, series_min s = Ok m ∧
       (∀ t, Time t ∈ s → ∃ x, m = Some x ∧ (x ≤ t)%Z) ∧
       (∀ x, m = Some x → Time x ∈ s).
Proof.
  apply (series_extremum_spec Z.min Z.le); intros; lia.
Qed.

Lemma series_max_spec (s : list value) :
  Forall (λ v, is_datetime v = true) s →
  ∃ m, series_max s = Ok m ∧
       (∀ t, Time t ∈ s → ∃ x, m = Some x ∧ (t ≤ x)%Z) ∧
       (∀ x, m = Some x → Time x ∈ s).
Proof.
  apply (series_extremum_spec Z.max (λ a b, (b ≤ a)%Z)); intros; lia.
Qed.

Lemma min_max_date_spec (df : DataFrame) :
  datetime_frame df →
  ∃ lo hi, min_date df = Ok lo ∧ max_date df = Ok hi ∧
    (∀ r d, r ∈ rows df → row_day r = Some d →
            ∃ l h, lo = Some l ∧ hi = Some h ∧ (l ≤ d ≤ h)%Z) ∧
    (∀ l, lo = Some l → ∃ r, r ∈ rows df ∧ row_day r = Some l) ∧
    (∀ h, hi = Some h → ∃ r, r ∈ rows df ∧ row_day r = Some h).
Proof.
  intros [Hc HF]. unfold min_date, max_date, getitem. rewrite decide_True by done.
  cbn [mbind result_mbind result_bind].
  assert (Forall (λ v, is_datetime v = true) (cell "Date" <$> rows df)) as HF'
    by (by apply Forall_fmap).
  destruct (series_min_spec _ HF') as (lo & -> & Hlo & Hlo').
  destruct (series_max_spec _ HF') as (hi & -> & Hhi & Hhi').
  exists (date_of_ns <$> lo), (date_of_ns <$> hi). cbn. split; [done|]. split; [done|].
  split; [|split].
  - intros r d Hr (t & Ht & ->)%row_day_Some.
    assert (Time t ∈ cell "Date" <$> rows df) as Hin
      by (rewrite <- Ht; by apply list_elem_of_fmap_2).
    destruct (Hlo _ Hin) as (l & -> & ?). destruct (Hhi _ Hin) as (h & -> & ?).
    exists (date_of_ns l), (date_of_ns h). split; [done|]. split; [done|].
    split; by apply date_of_ns_mono.
  - intros l Hl. destruct lo as [t|]; [|done]. injection Hl as <-.
    pose proof (Hlo' t eq_refl) as (r & Hr & Hin)%list_elem_of_fmap.
    exists r. split; [done|]. apply row_day_Some. eauto.
  - intros h Hh. destruct hi as [t|]; [|done]. injection Hh as <-.
    pose proof (Hhi' t eq_refl) as (r & Hr & Hin)%list_elem_of_fmap.
    exists r. split; [done|]. apply row_day_Some. eauto.
Qed.

(** X5: on a frame with a datetime Date column, [min_date] and [max_date]
    return the earliest and the latest calendar date among the rows that
    have one: every dated row lies between them and each is the date of a
    row; both are [NaT] exactly when no row has a date. *)
Theorem min_max_date_bounds (df : DataFrame) :
  datetime_frame df →
  ∃ lo hi, min_date df = Ok lo ∧ max_date df = Ok hi ∧
    (∀ r d, r ∈ rows df → row_day r = Some d →
            ∃ l h, lo = Some l ∧ hi = Some h ∧ (l ≤ d ≤ h)%Z) ∧
    (∀ l, lo = Some l → ∃ r, r ∈ rows df ∧ row_day r = Some l) ∧
    (∀ h, hi = Some h → ∃ r, r ∈ rows df ∧ row_day r = Some h).
Proof. apply min_max_date_spec. Qed.

Lemma min_max_date_bounds_witness :
  ∃ lo hi, min_date sample_frame = Ok lo ∧ max_date sample_frame = Ok hi ∧
    (∀ r d, r ∈ rows sample_frame → row_day r = Some d →
            ∃ l h, lo = Some l ∧ hi = Some h ∧ (l ≤ d ≤ h)%Z) ∧
    (∀ l, lo = Some l → ∃ r, r ∈ rows sample_frame ∧ row_day r = Some l) ∧
    (∀ h, hi = Some h → ∃ r, r ∈ rows sample_frame ∧ row_day r = Some h).
Proof. apply (min_max_date_bounds sample_frame). by_decide. Defined.

(** X6: the default answers of the two date inputs filter nothing away
    but the undated rows. With [user_start] the minimum and [user_end] the
    maximum date of the frame, the date filter keeps exactly the rows whose
    Date is not [NaT]. *)
Theorem date_filter_default_bounds (df : DataFrame) (lo hi : Z) :
  datetime_frame df →
  min_date df = Ok (Some lo) →
  max_date df = Ok (Some hi) →
  date_filter df lo hi =
    Ok {| columns := columns df; rows := filter (λ r, is_Some (row_day r)) (rows df) |}.
Proof.
  intros Hdf Hlo Hhi. rewrite date_filter_total by done. do 2 f_equal.
  destruct (min_max_date_spec df Hdf) as (lo' & hi' & Elo & Ehi & Hb & _).
  rewrite Hlo in Elo. rewrite Hhi in Ehi. injection Elo as <-. injection Ehi as <-.
  apply filter_iff_elem.
  intros r Hr. rewrite in_range_spec. split.
  - intros (d & -> & _). by eexists.
  - intros [d Hd]. destruct (Hb r d Hr Hd) as (l & h & [= <-] & [= <-] & ?). eauto.
Qed.

Lemma date_filter_default_bounds_witness :
  date_filter sample_frame 19723 19730 =
    Ok {| columns := columns sample_frame;
          rows := filter (λ r, is_Some (row_day r)) (rows sample_frame) |}.
Proof.
  apply (date_filter_default_bounds sample_frame 19723 19730).
  - by_decide.
  - by vm_compute.
  - by vm_compute.
Defined.

(** ** The stock selection *)

Lemma unique_unfold (s : list value) : unique s = foldl unique_step [] s.
Proof. done. Qed.

Lemma unique_step_prefix (s seen : list value) :
  ∃ more, foldl unique_step seen s = seen ++ more ∧ ∀ x, x ∈ more → x ∈ s.
Proof.
  revert seen. induction s as [|v s IH]; intros seen.
  - exists []. split; [by rewrite app_nil_r | by intros x ?%elem_of_nil].
  - cbn [foldl]. destruct (IH (unique_step seen v)) as (more & -> & Hmore).
    unfold unique_step. destruct (existsb (same_key v) seen).
    + exists more. split; [done|]. intros x Hx. right. by apply Hmore.
    + exists (v :: more). split; [by rewrite <- app_assoc|].
      intros x [->|Hx]%elem_of_cons; [by left | right; by apply Hmore].
Qed.

Lemma unique_elem_of (s : list value) (x : value) : x ∈ unique s → x ∈ s.
Proof.
  rewrite unique_unfold. destruct (unique_step_prefix s []) as (more & -> & Hmore).
  apply Hmore.
Qed.

Lemma unique_nonempty (s : list value) : s ≠ [] → unique s ≠ [].
Proof.
  destruct s as [|v s]; [done|]. intros _. rewrite unique_unfold. cbn.
  destruct (unique_step_prefix s [v]) as (more & -> & _). done.
Qed.

Lemma selectbox_elem_of (options : list value) (choice : nat) :
  options ≠ [] → selectbox options choice ∈ options.
Proof.
  intros Hne. unfold selectbox. destruct (options !! choice) as [v|] eqn:E.
  - by eapply list_elem_of_lookup_2.
  - destruct options as [|v options]; [done|]. by left.
Qed.

Lemma select_symbol_Ret (w : World) (df : DataFrame) :
  "Symbol" ∈ columns df →
  select_symbol w df =
    ([SidebarHeader "Stock Selection"; Widget "Choose a stock:"],
     Ret ({| columns := columns df;
             rows := filter (λ r, has_symbol
                                    (selectbox (unique (cell "Symbol" <$> rows df))
                                               (stock_choice w)) r = true)
                            (rows df) |},
          Some (selectbox (unique (cell "Symbol" <$> rows df)) (stock_choice w)))).
Proof.
  intros Hs. unfold select_symbol, getitem. rewrite !decide_True by done.
  cbn. by rewrite symbol_filter_rows.
Qed.

Lemma select_symbol_skip (w : World) (df : DataFrame) :
  "Symbol" ∉ columns df →
  select_symbol w df = ([SidebarHeader "Stock Selection"], Ret (df, None)).
Proof. intros Hs. unfold select_symbol. by rewrite decide_False. Qed.

(** X7: the stock the select box returns has rows. On a frame with at
    least one row whose Symbol cells are all strings, the symbol selection
    returns a frame that is not empty, keeps the columns, and holds the
    selected name in every Symbol cell. *)
Theorem select_symbol_keeps_rows (w : World) (df : DataFrame) :
  "Symbol" ∈ columns df →
  rows df ≠ [] →
  Forall (λ r, ∃ name, cell "Symbol" r = Str name) (rows df) →
  ∃ log df' name,
    select_symbol w df = (log, Ret (df', Some (Str name))) ∧
    rows df' ≠ [] ∧ columns df' = columns df ∧
    Forall (λ r, cell "Symbol" r = Str name) (rows df').
Proof.
  intros Hs Hne HF. rewrite select_symbol_Ret by done.
  set (stock := selectbox _ _).
  assert (stock ∈ cell "Symbol" <$> rows df) as Hin.
  { apply unique_elem_of, selectbox_elem_of, unique_nonempty.
    by destruct (rows df). }
  apply list_elem_of_fmap in Hin as (r & Hr & Hin).
  eapply Forall_forall in HF as [name Hname]; [|exact Hin].
  rewrite Hname in Hr. clearbody stock. subst stock.
  eexists _, _, name. split; [reflexivity|]. cbn.
  split; [|split; [done|]].
  - intros E. assert (r ∈ filter (λ r, has_symbol (Str name) r = true) (rows df)) as Hf.
    { apply list_elem_of_filter. split; [|done]. unfold has_symbol.
      rewrite Hname. by apply py_eq_Str. }
    rewrite E in Hf. by apply elem_of_nil in Hf.
  - apply Forall_forall. intros r' [Hr' _]%list_elem_of_filter.
    by apply py_eq_Str.
Qed.

Lemma select_symbol_keeps_rows_witness :
  ∃ log df' name,
    select_symbol sony_only_world sample_frame = (log, Ret (df', Some (Str name))) ∧
    rows df' ≠ [] ∧ columns df' = columns sample_frame ∧
    Forall (λ r, cell "Symbol" r = Str name) (rows df').
Proof.
  apply (select_symbol_keeps_rows sony_only_world sample_frame).
  - by_decide.
  - done.
  - repeat constructor; by eexists.
Defined.

(** ** The options of the select box in remote mode *)

Lemma existsb_same_key_Str (name : string) (names : list string) :
  existsb (same_key (Str name)) (Str <$> names) = bool_decide (name ∈ names).
Proof.
  induction names as [|n names IH]; [done|].
  cbn [fmap list_fmap existsb]. change (list_fmap _ _ Str names) with (Str <$> names).
  rewrite IH. unfold same_key. cbn.
  rewrite orb_false_r. destruct (String.eqb_spec name n) as [->|Hn].
  - symmetry. apply bool_decide_eq_true. by left.
  - cbn. apply bool_decide_ext. rewrite elem_of_cons. split; [by right | by intros [?|?]].
Qed.

Lemma unique_step_fresh (name : string) (names : list string) :
  name ∉ names → unique_step (Str <$> names) (Str name) = Str <$> (names ++ [name]).
Proof.
  intros Hn. unfold unique_step.
  by rewrite existsb_same_key_Str, bool_decide_eq_false_2, fmap_app by done.
Qed.

Lemma unique_step_seen (name : string) (names : list string) :
  name ∈ names → unique_step (Str <$> names) (Str name) = Str <$> names.
Proof.
  intros Hn. unfold unique_step.
  by rewrite existsb_same_key_Str, bool_decide_eq_true_2.
Qed.

Lemma unique_step_block (name : string) (bars : list Bar) (names : list string) :
  name ∉ names →
  foldl unique_step (Str <$> names) ((λ x : string * Bar, Str x.1) <$> ((λ b, (name, b)) <$> bars)) =
    Str <$> (names ++ match bars with [] => [] | _ :: _ => [name] end).
Proof.
  intros Hn. destruct bars as [|b bars]; [by rewrite app_nil_r|].
  cbn [fmap list_fmap foldl fst]. rewrite unique_step_fresh by done.
  assert (name ∈ names ++ [name]) as Hin by (apply elem_of_app; right; by left).
  revert Hin. generalize (names ++ [name]). clear. intros seen Hin.
  induction bars as [|b bars IH]; [done|].
  rewrite !fmap_cons. cbn [foldl fst]. by rewrite unique_step_seen.
Qed.

Lemma unique_step_blocks (fs : list (string * list Bar)) (names : list string) :
  NoDup (names ++ fs.*1) →
  foldl unique_step (Str <$> names) ((λ x : string * Bar, Str x.1) <$> bars_of fs) =
    Str <$> (names ++ names_with_bars fs).
Proof.
  revert names. induction fs as [|[name bars] fs IH]; intros names Hnd.
  - by rewrite app_nil_r.
  - unfold bars_of, names_with_bars. rewrite !bind_cons.
    fold (bars_of fs) (names_with_bars fs).
    rewrite fmap_app, foldl_app. rewrite fmap_cons in Hnd. cbn [fst] in Hnd.
    rewrite unique_step_block.
    + rewrite IH; [by rewrite <- app_assoc|].
      destruct bars; [rewrite app_nil_r|rewrite <- app_assoc; cbn].
      * apply NoDup_app in Hnd as (Hn1 & Hn2 & [_ Hn3]%NoDup_cons).
        apply NoDup_app. split; [done|]. split; [|done].
        intros x Hx Hk. apply (Hn2 x Hx). by right.
      * done.
    + apply NoDup_app in Hnd as (_ & Hnd & _). intros Hin. apply (Hnd _ Hin). by left.
Qed.

(** X8: in remote mode the select box offers exactly the companies whose
    download returned at least one bar, in the order of the company table
    and each once. *)
Theorem load_tokyo_data_symbols (w : World) (log : list event) (df : DataFrame) :
  load_tokyo_data w = (log, Ret df) →
  getitem df "Symbol" ≫= (λ s, Ok (unique s)) =
    Ok (Str <$> names_with_bars (fetched w companies)).
Proof.
  assert (NoDup (fetched w companies).*1) as Hnd
    by (eapply sublist_NoDup; [apply companies_NoDup | apply fetched_names_sublist]).
  rewrite load_tokyo_data_spec. revert Hnd. generalize (fetched w companies).
  intros fs Hnd. case_decide; [done|]. intros [= _ <-].
  rewrite getitem_fmap by by_decide. cbn [mbind result_mbind result_bind].
  rewrite unique_unfold. f_equal.
  rewrite (list_fmap_ext _ (λ x : string * Bar, Str x.1)) by done.
  by apply (unique_step_blocks _ []).
Qed.

Lemma load_tokyo_data_symbols_witness :
  ∃ log df, load_tokyo_data sony_only_world = (log, Ret df) ∧
    getitem df "Symbol" ≫= (λ s, Ok (unique s)) =
      Ok (Str <$> names_with_bars (fetched sony_only_world companies)).
Proof.
  eexists _, _. split; [by vm_compute|].
  eapply (load_tokyo_data_symbols sony_only_world). by vm_compute.
Defined.

(** ** More on the remote loader *)

Lemma fetched_nil_iff (w : World) (cs : list (string * string)) :
  fetched w cs = [] ↔
  ∀ name ticker, (name, ticker) ∈ cs →
                 ∃ e, yf_download w ticker start_date end_date = Err e.
Proof.
  split.
  - intros E name ticker Hin.
    destruct (yf_download w ticker start_date end_date) as [bars|e] eqn:Ey; [|eauto].
    assert ((name, bars) ∈ fetched w cs) as Hf by (apply elem_of_fetched; eauto).
    rewrite E in Hf. by apply elem_of_nil in Hf.
  - intros Hall. apply elem_of_nil_inv. intros [name bars] (t & Hin & E)%elem_of_fetched.
    destruct (Hall _ _ Hin) as [e He]. congruence.
Qed.

(** X9: [load_tokyo_data] ends in one of two ways only. It raises the
    ValueError of [pd.concat] exactly when the download of every company
    failed, and returns a frame as soon as one download succeeded (even with
    no bars in it); [st.stop()] and other exceptions do not occur. *)
Theorem load_tokyo_data_outcome (w : World) :
  ((load_tokyo_data w).2 = Raise (ValueError "No objects to concatenate") ↔
   ∀ name ticker, (name, ticker) ∈ companies →
                  ∃ e, yf_download w ticker start_date end_date = Err e) ∧
  ((∃ df, (load_tokyo_data w).2 = Ret df) ↔
   ∃ name ticker bars, (name, ticker) ∈ companies ∧
                       yf_download w ticker start_date end_date = Ok bars).
Proof.
  rewrite load_tokyo_data_spec. cbn [snd]. rewrite <- fetched_nil_iff.
  generalize (fetched_nil_iff w companies). intros Hnil. split.
  - case_decide; [done|]. split; [done|]. intros E. done.
  - case_decide as Hf.
    + split; [by intros [df ?]|]. intros (name & ticker & bars & Hin & E).
      destruct (proj1 Hnil Hf _ _ Hin) as [e He]. congruence.
    + split; [|by eauto]. intros _.
      destruct (fetched w companies) as [|[name bars] fs] eqn:E; [done|].
      assert ((name, bars) ∈ fetched w companies) as Hin by (rewrite E; by left).
      apply elem_of_fetched in Hin as (ticker & Hin & Ey). eauto.
Qed.

(** X10: the warnings of [load_tokyo_data] are those of the failed
    downloads. An element is in its log exactly when it is the warning
    "Failed to load <name>: <error>" of a company whose download raised
    that error; nothing else is put on the page. *)
Theorem load_tokyo_data_warnings (w : World) (ev : event) :
  ev ∈ (load_tokyo_data w).1 ↔
  ∃ name ticker e, (name, ticker) ∈ companies ∧
                   yf_download w ticker start_date end_date = Err e ∧
                   ev = Warning ("Failed to load " +:+ name +:+ ": " +:+ exn_str e).
Proof.
  rewrite load_tokyo_data_spec. cbn [fst]. generalize companies. intros cs.
  unfold failures. rewrite list_elem_of_bind. split.
  - intros ([name ticker] & Hev & Hin).
    destruct (yf_download w ticker start_date end_date) as [bars|e] eqn:E.
    + by apply elem_of_nil in Hev.
    + apply list_elem_of_singleton in Hev. by exists name, ticker, e.
  - intros (name & ticker & e & Hin & E & ->). exists (name, ticker).
    rewrite E. split; [by apply list_elem_of_singleton | done].
Qed.

Lemma price_row_dom (name : string) (b : Bar) :
  dom (price_row name b) = list_to_set price_columns.
Proof.
  unfold price_row, tagged_row, bar_row. rewrite !dom_insert_L, dom_empty_L.
  cbn. set_solver.
Qed.

(** X11: the frame [load_tokyo_data] returns is rectangular. Its columns
    are Date, Open, High, Low, Close, Volume, Symbol, Price_change and
    High_Low_Spread, in this order, and every row has a cell for each of
    them and for nothing else; its Date cells are timestamps. *)
Theorem load_tokyo_data_shape (w : World) (log : list event) (df : DataFrame) :
  load_tokyo_data w = (log, Ret df) →
  columns df = ["Date"; "Open"; "High"; "Low"; "Close"; "Volume"; "Symbol";
                "Price_change"; "High_Low_Spread"] ∧
  Forall (λ r, (∀ c, is_Some (r !! c) ↔ c ∈ columns df) ∧
               ∃ t, r !! "Date" = Some (Time t)) (rows df).
Proof.
  rewrite load_tokyo_data_spec. case_decide; [done|]. intros [= _ <-].
  split; [done|]. cbn [rows columns]. apply Forall_fmap, Forall_forall.
  intros [name b] _. cbn [fst snd]. split.
  - intros c. rewrite <- elem_of_dom, price_row_dom.
    by rewrite elem_of_list_to_set.
  - by exists (bar_date b).
Qed.

Lemma load_tokyo_data_shape_witness :
  ∃ log df, load_tokyo_data sony_only_world = (log, Ret df) ∧
    columns df = ["Date"; "Open"; "High"; "Low"; "Close"; "Volume"; "Symbol";
                  "Price_change"; "High_Low_Spread"] ∧
    Forall (λ r, (∀ c, is_Some (r !! c) ↔ c ∈ columns df) ∧
                 ∃ t, r !! "Date" = Some (Time t)) (rows df).
Proof.
  eexists _, _. split; [by vm_compute|].
  eapply (load_tokyo_data_shape sony_only_world). by vm_compute.
Defined.

Lemma fetched_ext (w w' : World) (cs : list (string * string)) :
  (∀ ticker, yf_download w ticker start_date end_date =
             yf_download w' ticker start_date end_date) →
  fetched w cs = fetched w' cs ∧ failures w cs = failures w' cs.
Proof.
  intros Hy. unfold fetched, failures.
  induction cs as [|[name ticker] cs [IH1 IH2]]; [done|].
  rewrite !bind_cons, IH1, IH2, Hy. done.
Qed.

(** X12: [load_tokyo_data] consults nothing but the price provider. Two
    worlds whose downloads answer alike give the same warnings and the same
    frame, whatever their uploaded file, date parser and widgets: the
    [pd.to_datetime] call on the fetched Date column never reaches the
    parser of date strings. *)
Theorem load_tokyo_data_provider_only (w w' : World) :
  (∀ ticker, yf_download w ticker start_date end_date =
             yf_download w' ticker start_date end_date) →
  load_tokyo_data w = load_tokyo_data w'.
Proof.
  intros Hy. rewrite !load_tokyo_data_spec.
  by destruct (fetched_ext w w' companies Hy) as [-> ->].
Qed.

Lemma load_tokyo_data_provider_only_witness :
  load_tokyo_data sony_only_world = load_tokyo_data sony_only_plotly_world.
Proof.
  apply (load_tokyo_data_provider_only sony_only_world sony_only_plotly_world).
  reflexivity.
Defined.

(** ** More on the upload branch *)

(** X13: the upload branch hands on the parsed file as it is, apart from
    the Date column. When it returns, it has shown the uploader and the
    success message, and the frame has the columns and the number of rows
    [read_csv] gave, with every cell outside the Date column unchanged. *)
Theorem load_upload_keeps_frame (w : World) (file : string) (df0 df : DataFrame)
    (log : list event) :
  uploaded_file w = Some file →
  read_csv w file = Ok df0 →
  load_upload w = (log, Ret df) →
  log = [Widget "tokyo_index.csv"; Success "Custom dataset loaded!"] ∧
  columns df = columns df0 ∧
  length (rows df) = length (rows df0) ∧
  ∀ i r0 r c, rows df0 !! i = Some r0 → rows df !! i = Some r →
              c ≠ "Date" → r !! c = r0 !! c.
Proof.
  unfold load_upload. intros -> E H. rewrite E in H. cbn in H.
  case_decide as Hd.
  - unfold getitem in H. rewrite decide_True in H by done. cbn in H.
    destruct (to_datetime _ _) as [d|e] eqn:Ed; cbn in H; [|done].
    unfold setitem in H. case_decide as Hlen; cbn in H; [|done].
    injection H as <- <-. cbn. split; [done|]. split.
    + unfold add_column. by rewrite decide_True.
    + split; [by rewrite length_zip_with_l_eq|].
      intros i r0 r c Hr0 (x & v & -> & Hx & _)%lookup_zip_with_Some Hc.
      rewrite Hr0 in Hx. injection Hx as <-. by rewrite lookup_insert_ne.
  - injection H as <- <-. split; [done|]. split; [done|]. split; [done|].
    intros i r0 r c Hr0 Hr _. congruence.
Qed.

Lemma load_upload_keeps_frame_witness :
  ∃ log df, load_upload prices_upload_world = (log, Ret df) ∧
    log = [Widget "tokyo_index.csv"; Success "Custom dataset loaded!"] ∧
    columns df = columns prices_frame ∧
    length (rows df) = length (rows prices_frame) ∧
    ∀ i r0 r c, rows prices_frame !! i = Some r0 → rows df !! i = Some r →
                c ≠ "Date" → r !! c = r0 !! c.
Proof.
  eexists _, _. split; [by vm_compute|].
  eapply (load_upload_keeps_frame prices_upload_world prices_csv); by vm_compute.
Defined.





(** ** Whole runs *)

Lemma emit_bind {B : Type} (ev : event) (m : script B) :
  (emit ev;; m) = (ev :: m.1, m.2).
Proof. unfold emit, mbind, script_mbind, script_bind. by destruct m. Qed.

Lemma script_bind_not_Ret {A B : Type} (log : list event) (o : outcome A) (f : A → script B) :
  (∀ a, o ≠ Ret a) →
  ((log, o) : script A) ≫= f =
    (log, match o with Ret _ => Stop | Stop => Stop | Raise e => Raise e end).
Proof. intros Ho. destruct o as [a| |e]; [by destruct (Ho a) | done..]. Qed.

Lemma script_snd_Ret_inv {A B : Type} (m : script A) (f : A → script B) (b : B) :
  (m ≫= f).2 = Ret b →
  ∃ l a, m = (l, Ret a) ∧ (f a).2 = Ret b ∧ (m ≫= f).1 = l ++ (f a).1.
Proof.
  destruct m as [l [a| |e]]; [|done..]. rewrite script_bind_Ret. cbn. eauto.
Qed.

Lemma select_symbol_columns (w : World) (df : DataFrame) :
  ∃ log df' stock, select_symbol w df = (log, Ret (df', stock)) ∧
    columns df' = columns df ∧
    (datetime_frame df → datetime_frame df').
Proof.
  destruct (decide ("Symbol" ∈ columns df)) as [Hs|Hs].
  - rewrite select_symbol_Ret by done. eexists _, _, _. split; [done|].
    split; [done|]. intros [Hc HF]. split; [done|]. cbn. by apply Forall_filter_keep.
  - rewrite select_symbol_skip by done. by eexists _, _, _.
Qed.

Lemma select_dates_no_date (w : World) (df : DataFrame) :
  "Date" ∉ columns df →
  select_dates w df = ([SidebarHeader "Date Range Filter"], Raise (KeyError "Date")).
Proof.
  intros Hd. unfold select_dates, min_date, getitem. by rewrite decide_False.
Qed.

(** X15: an uploaded file without a Date column ends the run at the date
    range step. Whatever else the file holds, the success message is shown
    and then the run raises KeyError for Date; no date input, download
    button or chart is reached. *)
Theorem main_upload_without_date (w : World) (file : string) (df0 : DataFrame) :
  data_source w = UploadCSV →
  uploaded_file w = Some file →
  read_csv w file = Ok df0 →
  "Date" ∉ columns df0 →
  (main w).2 = Raise (KeyError "Date") ∧
  Success "Custom dataset loaded!" ∈ (main w).1 ∧
  last (main w).1 = Some (SidebarHeader "Date Range Filter").
Proof.
  intros Hsrc Hfile E Hd.
  assert (load w = ([Widget "tokyo_index.csv"; Success "Custom dataset loaded!"], Ret df0))
    as Eload.
  { unfold load, load_upload. rewrite Hsrc, Hfile, E. cbn. by rewrite decide_False. }
  destruct (select_symbol_columns w df0) as (l1 & df1 & stock & Esym & Hcols & _).
  assert ("Date" ∉ columns df1) as Hd1 by (by rewrite Hcols).
  unfold main. rewrite !emit_bind. cbn [fst snd].
  rewrite Eload, script_bind_Ret. cbn [fst snd].
  rewrite Esym, script_bind_Ret. cbn [fst snd].
  rewrite select_dates_no_date by done. cbn [fst snd mbind script_mbind script_bind].
  split; [done|]. split.
  - do 5 right. by left.
  - rewrite !app_comm_cons, app_assoc. by rewrite last_snoc.
Qed.

Lemma main_upload_without_date_witness :
  (main undated_upload_world).2 = Raise (KeyError "Date") ∧
  Success "Custom dataset loaded!" ∈ (main undated_upload_world).1 ∧
  last (main undated_upload_world).1 = Some (SidebarHeader "Date Range Filter").
Proof.
  apply (main_upload_without_date undated_upload_world undated_csv undated_frame).
  - reflexivity.
  - reflexivity.
  - reflexivity.
  - by_decide.
Defined.


Ltac find_event :=
  repeat first [ by apply list_elem_of_here
               | apply list_elem_of_further
               | apply elem_of_app; right ].

(** The element a chart call puts on the page. *)
Lemma render_log (w : World) (df : DataFrame) (stock : option value) :
  (render w df stock).2 = Ret tt →
  "Date" ∈ columns df ∧ "Close" ∈ columns df ∧
  (render w df stock).1 =
    [Subheader "📊 Closing Price Trend";
     match chart_type w with
     | StaticSeaborn => Pyplot df (if decide ("Symbol" ∈ columns df) then stock else None)
     | InteractivePlotly => PlotlyChart df
     end;
     Widget "Show full dataset"] ++
    (if show_full_dataset w then [ShowDataframe df] else []).
Proof.
  unfold render, line_chart_data.
  destruct (decide ("Date" ∈ columns df)), (decide ("Close" ∈ columns df)),
    (chart_type w), (show_full_dataset w); cbn; done.
Qed.


(** X16: a run that reaches its last line exports the frame it charts.
    The loaded frame was narrowed by the two filters to one frame, and it
    is this frame whose CSV the download button carries, that the chart of
    the chosen kind plots, and that the table shows when asked for; it has
    the Date and Close columns. *)
Theorem main_exports_charted_frame (w : World) (log : list event) :
  main w = (log, Ret tt) →
  ∃ l0 df0 stock user_start user_end df,
    load w = (l0, Ret df0) ∧
    select df0 stock user_start user_end = Ok df ∧
    "Date" ∈ columns df ∧ "Close" ∈ columns df ∧
    DownloadButton "Download current data as CSV" (to_csv w df)
      "filtered_stock_data.csv" "text/csv" ∈ log ∧
    match chart_type w with
    | StaticSeaborn => ∃ title_stock, Pyplot df title_stock ∈ log
    | InteractivePlotly => PlotlyChart df ∈ log
    end ∧
    (show_full_dataset w = true → ShowDataframe df ∈ log).
Proof.
  unfold main. rewrite !emit_bind. cbn [fst snd]. intros [= <- Hout].
  apply script_snd_Ret_inv in Hout as (l0 & df0 & Eload & Hout & ->).
  apply script_snd_Ret_inv in Hout as (l1 & [df1 stock] & Esym & Hout & ->).
  cbn beta iota in Hout |- *.
  apply script_snd_Ret_inv in Hout as (l2 & df & Edates & Hout & ->).
  cbn beta iota in Hout |- *.
  pose proof (render_log w df stock) as Hrender.
  destruct (render w df stock) as [lr o]. cbn [fst snd] in Hout, Hrender |- *.
  destruct (Hrender Hout) as (Hd & Hc & ->). clear Hrender.
  destruct (main_filters_are_select _ _ _ _ _ _ _ Esym Edates) as (s & e & Esel).
  exists l0, df0, (default NoneV stock), s, e, df.
  split; [done|]. split; [done|]. split; [done|]. split; [done|].
  unfold convert_df_to_csv. split; [|split].
  - find_event.
  - destruct (chart_type w); [eexists|]; find_event.
  - intros ->. find_event.
Qed.

Lemma main_exports_charted_frame_witness :
  ∃ l0 df0 stock user_start user_end df,
    load sony_only_plotly_world = (l0, Ret df0) ∧
    select df0 stock user_start user_end = Ok df ∧
    "Date" ∈ columns df ∧ "Close" ∈ columns df ∧
    DownloadButton "Download current data as CSV" (to_csv sony_only_plotly_world df)
      "filtered_stock_data.csv" "text/csv" ∈ (main sony_only_plotly_world).1 ∧
    match chart_type sony_only_plotly_world with
    | StaticSeaborn => ∃ title_stock, Pyplot df title_stock ∈ (main sony_only_plotly_world).1
    | InteractivePlotly => PlotlyChart df ∈ (main sony_only_plotly_world).1
    end ∧
    (show_full_dataset sony_only_plotly_world = true →
     ShowDataframe df ∈ (main sony_only_plotly_world).1).
Proof.
  apply (main_exports_charted_frame sony_only_plotly_world).
  by vm_compute.
Defined.


